(** * Hedge engine FFI stubs: the accounting kernel of [hedge_engine.ffi]

    A shallow embedding of the pure-Python stubs in
    [src/hedge_engine/ffi/__init__.py] (the [except ImportError] branch),
    together with the properties the specification states about them.

    Python passes lists and dicts by reference, so the kernel is embedded in
    a store-passing monad: a position list is a reference to a list object
    whose elements are references to dict objects.  Integers are Python's
    unbounded [int], hence [Z]. *)

From Stdlib Require Import ZArith Lia.
From stdpp Require Import gmap strings list fin_maps.

Local Open Scope Z_scope.

(** ** Values, objects and the store *)

(** The values a position dict holds: [dict[str, int | str]]. *)
Inductive value : Type :=
  | VInt (z : Z)
  | VStr (s : string).

Abbreviation dict := (gmap string value).
Abbreviation loc := positive.

(** The object store: dict objects and list objects, each behind a reference. *)
Record store : Type := Store {
  dicts : gmap loc dict;
  lists : gmap loc (list loc)
}.

(** [p[key]] raises [KeyError(key)] on a missing key; it is the only
    exception the stubs can raise on inputs of their annotated types. *)
Inductive exn : Type :=
  | KeyError (key : string).

(** What a call does: it returns, it raises, or the input lies outside the
    annotated types ([Unmodelled]: a reference of the wrong kind, or a
    non-[int] under ["quantity"] or ["mark_price"]). *)
Inductive outcome (A : Type) : Type :=
  | Returns (a : A)
  | Raises (e : exn)
  | Unmodelled.
Arguments Returns {A} a.
Arguments Raises {A} e.
Arguments Unmodelled {A}.

(** ** The store-passing monad *)

Definition M (A : Type) : Type := store → outcome A * store.

#[global] Instance M_ret : MRet M := λ A a σ, (Returns a, σ).

#[global] Instance M_bind : MBind M := λ A B f m σ,
  match m σ with
  | (Returns a, σ') => f a σ'
  | (Raises e, σ') => (Raises e, σ')
  | (Unmodelled, σ') => (Unmodelled, σ')
  end.

(** [for p in positions]: the elements of the list object, in order. *)
Definition list_iter (positions : loc) : M (list loc) := λ σ,
  match lists σ !! positions with
  | Some ps => (Returns ps, σ)
  | None => (Unmodelled, σ)
  end.

(** [p[key]] on a dict object. *)
Definition getitem (p : loc) (key : string) : M value := λ σ,
  match dicts σ !! p with
  | Some d =>
      match d !! key with
      | Some v => (Returns v, σ)
      | None => (Raises (KeyError key), σ)
      end
  | None => (Unmodelled, σ)
  end.

(** The operand of an integer operation, by the annotation [dict[str, int]]. *)
Definition as_int (v : value) : M Z := λ σ,
  match v with
  | VInt z => (Returns z, σ)
  | VStr _ => (Unmodelled, σ)
  end.

(** [a == b] on values: an [int] never equals a [str]; strings compare
    character by character. *)
Definition py_eq (a b : value) : bool :=
  match a, b with
  | VInt x, VInt y => Z.eqb x y
  | VStr s, VStr t => String.eqb s t
  | _, _ => false
  end.

(** [int(z)] on an [int] is the identity. *)
Definition py_int (z : Z) : Z := z.

(** [sum(gen)]: starts from [0] and adds the items as the generator
    produces them, left to right. *)
Fixpoint py_sum (start : Z) (gen : list (M Z)) : M Z :=
  match gen with
  | [] => mret start
  | item :: gen' => v ← item; py_sum (start + v) gen'
  end.

(** ** The kernel stubs ([hedge_engine/ffi/__init__.py]) *)

(** [def initialize_lean() -> None]: a docstring and nothing else. *)
Definition initialize_lean : M unit := mret ().

(** [return quantity * mark_price] *)
Definition position_value (quantity mark_price : Z) : M Z :=
  mret (quantity * mark_price).

(** [p["quantity"] * p["mark_price"]]: both subscripts are evaluated, left
    to right, before the product. *)
Definition item_value (p : loc) : M Z :=
  q ← getitem p "quantity";
  m ← getitem p "mark_price";
  a ← as_int q;
  b ← as_int m;
  mret (a * b).

(** [return sum(p["quantity"] * p["mark_price"] for p in positions)] *)
Definition sum_position_values (positions : loc) : M Z :=
  ps ← list_iter positions;
  py_sum 0 (item_value <$> ps).

(** [return int(cash + sum_position_values(positions))] *)
Definition calc_nav (cash : Z) (positions : loc) : M Z :=
  s ← sum_position_values positions;
  mret (py_int (cash + s)).

(** The loop of [get_position]: return the first [p] with
    [p["asset_id"] == asset_id], or [None] when the list is exhausted. *)
Fixpoint get_position_loop (ps : list loc) (asset_id : string) : M (option loc) :=
  match ps with
  | [] => mret None
  | p :: ps' =>
      v ← getitem p "asset_id";
      if py_eq v (VStr asset_id) then mret (Some p)
      else get_position_loop ps' asset_id
  end.

Definition get_position (positions : loc) (asset_id : string) : M (option loc) :=
  ps ← list_iter positions;
  get_position_loop ps asset_id.

(** ** Reading the store: what a list reference denotes *)

(** The dicts a list reference stands for, in order; [None] when the
    reference or one of the elements is not in the store. *)
Definition positions_of (σ : store) (positions : loc) : option (list dict) :=
  ps ← lists σ !! positions;
  mapM (λ p, dicts σ !! p) ps.

(** The [quantity] and [mark_price] of a position record, when both are
    present and are integers. *)
Definition holding (d : dict) : option (Z * Z) :=
  match d !! "quantity", d !! "mark_price" with
  | Some (VInt q), Some (VInt m) => Some (q, m)
  | _, _ => None
  end.

Definition holdings (P : list dict) : option (list (Z * Z)) := mapM holding P.

(** The [asset_id] of a position record, when present and a string. *)
Definition asset_id_of (d : dict) : option string :=
  match d !! "asset_id" with
  | Some (VStr s) => Some s
  | _ => None
  end.

Definition asset_ids (P : list dict) : option (list string) := mapM asset_id_of P.

(** What the valuation operations read of a record: the entries under the
    two keys, present or not. *)
Definition valuation_view (d : dict) : option value * option value :=
  (d !! "quantity", d !! "mark_price").

(** The mathematical sum of a list of integers. *)
Definition sum_Z (vs : list Z) : Z := foldr Z.add 0 vs.

(** Σ quantity × mark_price. *)
Definition total (QM : list (Z * Z)) : Z := sum_Z ((λ qm, qm.1 * qm.2) <$> QM).

(** ** The Money range recommended by the specification: signed 64-bit *)

Definition Money_MIN : Z := - 2 ^ 63.
Definition Money_MAX : Z := 2 ^ 63 - 1.
Definition Quantity_MAX : Z := 2 ^ 63 - 1.

Definition in_money_range (z : Z) : Prop := Money_MIN ≤ z ≤ Money_MAX.

(** The value a two's-complement 64-bit machine would keep of [z]. *)
Definition wrap64 (z : Z) : Z := (z + 2 ^ 63) mod 2 ^ 64 - 2 ^ 63.

(** A call signals an error when it raises instead of returning. *)
Definition signals_error {A} (r : outcome A * store) : Prop :=
  ∃ e, r.1 = Raises e.

(** The call returned the true value [v] in store [σ]; when [v] lies outside
    the Money range, that is neither the wrapped value nor an error. *)
Definition exact_result (r : outcome Z * store) (v : Z) (σ : store) : Prop :=
  r = (Returns v, σ) ∧
  (¬ in_money_range v → r ≠ (Returns (wrap64 v), σ) ∧ ¬ signals_error r).

(** [initialize_lean()] called [n] times in a row. *)
Fixpoint initialize_lean_times (n : nat) : M unit :=
  match n with
  | O => mret ()
  | S n' => initialize_lean;; initialize_lean_times n'
  end.

(** ** The portfolios of [tests/test_ffi.py] *)

Definition SPY : dict :=
  {[ "asset_id" := VStr "SPY"; "quantity" := VInt 100; "mark_price" := VInt 500000 ]}.
Definition AAPL : dict :=
  {[ "asset_id" := VStr "AAPL"; "quantity" := VInt 50; "mark_price" := VInt 1800000 ]}.
(** The records of [test_sum_position_values_multiple] carry no [asset_id]. *)
Definition anon1 : dict := {[ "quantity" := VInt 100; "mark_price" := VInt 500000 ]}.
Definition anon2 : dict := {[ "quantity" := VInt 50; "mark_price" := VInt 1800000 ]}.

Definition test_store : store :=
  Store {[ 1%positive := SPY; 2%positive := AAPL; 3%positive := anon1; 4%positive := anon2 ]}
        {[ 10%positive := [];
           11%positive := [1%positive; 2%positive];
           12%positive := [3%positive; 4%positive];
           13%positive := [1%positive];
           14%positive := [2%positive];
           15%positive := [2%positive; 1%positive] ]}.

(** A portfolio at the edge of the Money range. *)
Definition huge : dict :=
  {[ "asset_id" := VStr "HUGE"; "quantity" := VInt Quantity_MAX; "mark_price" := VInt Money_MAX ]}.

Definition unit_lot : dict :=
  {[ "asset_id" := VStr "UNIT"; "quantity" := VInt 1; "mark_price" := VInt 1 ]}.

Definition huge_store : store :=
  Store {[ 1%positive := huge; 2%positive := unit_lot ]}
        {[ 10%positive := [1%positive]; 11%positive := [2%positive] ]}.

(** ** What the lookup reads, and the edge cases of the records *)

(** What [p["asset_id"]] finds behind a reference: no dict at all, a dict
    without the key, or the value under the key. *)
Definition asset_entry (σ : store) (p : loc) : option (option value) :=
  (λ d : dict, d !! "asset_id") <$> dicts σ !! p.

(** The values under ["asset_id"] of a run of references, when every one of
    them is a dict that has the key. *)
Definition asset_values (σ : store) (ps : list loc) : option (list value) :=
  mapM (λ p, d ← dicts σ !! p; d !! "asset_id") ps.

(** The key whose subscript fails first in [p["quantity"] * p["mark_price"]]:
    the left operand is evaluated before the right one. *)
Definition missing_key (d : dict) : option string :=
  match d !! "quantity", d !! "mark_price" with
  | None, _ => Some "quantity"
  | Some _, None => Some "mark_price"
  | Some _, Some _ => None
  end.

(** Every quantity multiplied by [k] ([k = -1]: each long becomes a short). *)
Definition scale_quantities (k : Z) (QM : list (Z * Z)) : list (Z * Z) :=
  (λ qm, (k * qm.1, qm.2)) <$> QM.

(** Records at the edge of what the stubs accept. *)
Definition int_id : dict :=
  {[ "asset_id" := VInt 7; "quantity" := VInt 1; "mark_price" := VInt 1 ]}.
Definition no_price : dict :=
  {[ "asset_id" := VStr "GME"; "quantity" := VStr "ten" ]}.
Definition no_keys : dict := {[ "asset_id" := VStr "NIL" ]}.
Definition flat : dict :=
  {[ "asset_id" := VStr "FLAT"; "quantity" := VInt 0; "mark_price" := VInt Money_MAX ]}.
Definition short_SPY : dict :=
  {[ "asset_id" := VStr "SPY"; "quantity" := VInt (-100); "mark_price" := VInt 500000 ]}.
Definition short_AAPL : dict :=
  {[ "asset_id" := VStr "AAPL"; "quantity" := VInt (-50); "mark_price" := VInt 1800000 ]}.

Definition edge_store : store :=
  Store {[ 1%positive := SPY; 2%positive := AAPL; 3%positive := anon1;
           5%positive := int_id; 6%positive := no_price; 7%positive := flat;
           8%positive := short_SPY; 9%positive := short_AAPL;
           4%positive := no_keys ]}
        {[ 20%positive := [5%positive; 1%positive; 3%positive];
           21%positive := [1%positive; 6%positive; 4%positive];
           22%positive := [1%positive; 2%positive];
           23%positive := [1%positive; 7%positive; 2%positive];
           24%positive := [8%positive; 9%positive] ]}.

(** The portfolio of [test_store] after a repricing: the same references,
    the same [asset_id]s, other quantities and prices. *)
Definition repriced_store : store :=
  Store {[ 1%positive := <[ "mark_price" := VInt 510000 ]> SPY;
           2%positive := <[ "quantity" := VInt 75 ]> AAPL ]}
        {[ 11%positive := [1%positive; 2%positive] ]}.

(** ** Denotations used in the proofs *)

(** The outcome of [item_value] as a function of the two entries it reads:
    the first missing key raises; two integers give their product. *)
Definition item_outcome (w : option value * option value) : outcome Z :=
  match w with
  | (None, _) => Raises (KeyError "quantity")
  | (Some _, None) => Raises (KeyError "mark_price")
  | (Some (VInt q), Some (VInt m)) => Returns (q * m)
  | (Some _, Some _) => Unmodelled
  end.

(** The outcome of [py_sum] as a function of the outcomes of its items:
    the first item that does not return decides. *)
Fixpoint sum_outcomes (start : Z) (os : list (outcome Z)) : outcome Z :=
  match os with
  | [] => Returns start
  | Returns v :: os' => sum_outcomes (start + v) os'
  | Raises e :: _ => Raises e
  | Unmodelled :: _ => Unmodelled
  end.

(** A computation that leaves the store as it found it, whatever it does. *)
Definition reads_only {A} (m : M A) : Prop := ∀ σ, (m σ).2 = σ.

(** * Properties *)

(** ** The monad: running binds, and the frame rules *)

Lemma bind_run {A B} (m : M A) (f : A → M B) σ :
  (m ≫= f) σ =
    match m σ with
    | (Returns a, σ') => f a σ'
    | (Raises e, σ') => (Raises e, σ')
    | (Unmodelled, σ') => (Unmodelled, σ')
    end.
Proof. reflexivity. Qed.

Lemma bind_returns {A B} (m : M A) (f : A → M B) σ a σ' :
  m σ = (Returns a, σ') → (m ≫= f) σ = f a σ'.
Proof. intros Hm. rewrite bind_run, Hm. reflexivity. Qed.

Lemma reads_only_ret {A} (a : A) : reads_only (mret a).
Proof. intros σ. reflexivity. Qed.

Lemma reads_only_bind {A B} (m : M A) (f : A → M B) :
  reads_only m → (∀ a, reads_only (f a)) → reads_only (m ≫= f).
Proof.
  intros Hm Hf σ. rewrite bind_run.
  specialize (Hm σ). destruct (m σ) as [[a|e|] σ']; simpl in *; subst; auto.
  apply Hf.
Qed.

Lemma reads_only_list_iter l : reads_only (list_iter l).
Proof. intros σ. unfold list_iter. destruct (lists σ !! l); reflexivity. Qed.

Lemma reads_only_getitem p k : reads_only (getitem p k).
Proof.
  intros σ. unfold getitem.
  destruct (dicts σ !! p) as [d|]; [destruct (d !! k)|]; reflexivity.
Qed.

Lemma reads_only_as_int v : reads_only (as_int v).
Proof. intros σ. destruct v; reflexivity. Qed.

Create HintDb frame.
#[local] Hint Resolve reads_only_ret reads_only_bind reads_only_list_iter
  reads_only_getitem reads_only_as_int : frame.

Lemma reads_only_item_value p : reads_only (item_value p).
Proof. unfold item_value. auto 10 with frame. Qed.
#[local] Hint Resolve reads_only_item_value : frame.

Lemma reads_only_py_sum gen :
  Forall reads_only gen → ∀ start, reads_only (py_sum start gen).
Proof.
  induction 1 as [|item gen Hitem _ IH]; intros start; simpl; auto with frame.
Qed.

Lemma reads_only_sum_position_values l : reads_only (sum_position_values l).
Proof.
  unfold sum_position_values. apply reads_only_bind; [auto with frame|].
  intros ps. apply reads_only_py_sum, Forall_fmap, Forall_true.
  intros p. apply reads_only_item_value.
Qed.
#[local] Hint Resolve reads_only_sum_position_values : frame.

Lemma reads_only_calc_nav cash l : reads_only (calc_nav cash l).
Proof. unfold calc_nav. auto with frame. Qed.

Lemma reads_only_position_value q m : reads_only (position_value q m).
Proof. apply reads_only_ret. Qed.

Lemma reads_only_initialize_lean : reads_only initialize_lean.
Proof. apply reads_only_ret. Qed.

Lemma reads_only_get_position_loop ps id : reads_only (get_position_loop ps id).
Proof.
  induction ps as [|p ps IH]; simpl; [auto with frame|].
  apply reads_only_bind; [auto with frame|].
  intros v. destruct (py_eq v (VStr id)); auto with frame.
Qed.

Lemma reads_only_get_position l id : reads_only (get_position l id).
Proof.
  unfold get_position. apply reads_only_bind; [auto with frame|].
  intros ps. apply reads_only_get_position_loop.
Qed.

(** ** What the operations compute, as a function of what they read *)

Lemma positions_of_Some σ l P :
  positions_of σ l = Some P ↔
  ∃ ps, lists σ !! l = Some ps ∧ Forall2 (λ p d, dicts σ !! p = Some d) ps P.
Proof.
  unfold positions_of. split.
  - destruct (lists σ !! l) as [ps|]; simpl; [|discriminate].
    intros HP. exists ps. split; [reflexivity|]. by apply mapM_Some.
  - intros (ps & -> & HP). simpl. by apply mapM_Some.
Qed.

Lemma getitem_run σ p d k :
  dicts σ !! p = Some d →
  getitem p k σ =
    (match d !! k with Some v => Returns v | None => Raises (KeyError k) end, σ).
Proof. intros Hp. unfold getitem. rewrite Hp. by destruct (d !! k). Qed.

Lemma item_value_run σ p d :
  dicts σ !! p = Some d →
  item_value p σ = (item_outcome (valuation_view d), σ).
Proof.
  intros Hp. unfold item_value, valuation_view.
  rewrite bind_run, (getitem_run _ _ _ _ Hp).
  destruct (d !! "quantity") as [q|]; [|reflexivity].
  rewrite bind_run, (getitem_run _ _ _ _ Hp).
  destruct (d !! "mark_price") as [m|]; [|by destruct q].
  destruct q, m; reflexivity.
Qed.

Lemma py_sum_run σ ps P :
  Forall2 (λ p d, dicts σ !! p = Some d) ps P →
  ∀ start,
    py_sum start (item_value <$> ps) σ =
    (sum_outcomes start (item_outcome ∘ valuation_view <$> P), σ).
Proof.
  induction 1 as [|p d ps P Hp _ IH]; intros start; [reflexivity|].
  cbn [fmap list_fmap py_sum sum_outcomes compose].
  rewrite bind_run, (item_value_run _ _ _ Hp).
  destruct (item_outcome (valuation_view d)); [apply IH|reflexivity..].
Qed.

Lemma sum_position_values_run σ l P :
  positions_of σ l = Some P →
  sum_position_values l σ =
    (sum_outcomes 0 (item_outcome ∘ valuation_view <$> P), σ).
Proof.
  intros (ps & Hl & HP)%positions_of_Some.
  unfold sum_position_values, list_iter. rewrite bind_run, Hl.
  by apply py_sum_run.
Qed.

Lemma calc_nav_run σ cash l :
  calc_nav cash l σ =
    match sum_position_values l σ with
    | (Returns s, σ') => (Returns (cash + s), σ')
    | (Raises e, σ') => (Raises e, σ')
    | (Unmodelled, σ') => (Unmodelled, σ')
    end.
Proof. reflexivity. Qed.

(** *** Sums of well-formed holdings *)

Lemma sum_Z_app vs ws : sum_Z (vs ++ ws) = sum_Z vs + sum_Z ws.
Proof. unfold sum_Z. induction vs as [|v vs IH]; simpl; lia. Qed.

Lemma total_cons q m QM : total ((q, m) :: QM) = q * m + total QM.
Proof. reflexivity. Qed.

Lemma total_app QM1 QM2 : total (QM1 ++ QM2) = total QM1 + total QM2.
Proof. unfold total. by rewrite fmap_app, sum_Z_app. Qed.

Lemma total_Permutation QM QM' : QM ≡ₚ QM' → total QM = total QM'.
Proof.
  induction 1 as [|[q m] ?? _ IH|[q m] [q' m'] ?|??? _ IH1 _ IH2];
    rewrite ?total_cons; lia.
Qed.

Lemma holding_Some d q m :
  holding d = Some (q, m) ↔
  d !! "quantity" = Some (VInt q) ∧ d !! "mark_price" = Some (VInt m).
Proof.
  unfold holding.
  destruct (d !! "quantity") as [[]|], (d !! "mark_price") as [[]|];
    (split; [intros ?|intros [??]]; by simplify_eq).
Qed.

Lemma item_outcome_holding d q m :
  holding d = Some (q, m) → item_outcome (valuation_view d) = Returns (q * m).
Proof.
  intros [Hq Hm]%holding_Some. unfold valuation_view. by rewrite Hq, Hm.
Qed.

Lemma holdings_cons d P :
  holdings (d :: P) = qm ← holding d; QM ← holdings P; Some (qm :: QM).
Proof. reflexivity. Qed.

Lemma holdings_app P1 P2 QM :
  holdings (P1 ++ P2) = Some QM ↔
  ∃ QM1 QM2, holdings P1 = Some QM1 ∧ holdings P2 = Some QM2 ∧ QM = QM1 ++ QM2.
Proof.
  unfold holdings. rewrite mapM_Some. split.
  - intros (QM1 & QM2 & H1 & H2 & ->)%Forall2_app_inv_l.
    exists QM1, QM2. by rewrite !mapM_Some.
  - intros (QM1 & QM2 & H1%mapM_Some & H2%mapM_Some & ->).
    by apply Forall2_app.
Qed.

Lemma sum_outcomes_holdings P QM :
  holdings P = Some QM →
  ∀ start,
    sum_outcomes start (item_outcome ∘ valuation_view <$> P) =
    Returns (start + total QM).
Proof.
  unfold holdings. intros HP%mapM_Some.
  induction HP as [|d [q m] P QM Hd _ IH]; intros start.
  - unfold total. simpl. f_equal. lia.
  - cbn [fmap list_fmap sum_outcomes compose].
    rewrite (item_outcome_holding _ _ _ Hd), IH, total_cons. f_equal. lia.
Qed.

(** On well-formed positions the summation returns Σ quantity × mark_price
    and leaves the store alone. *)
Lemma sum_position_values_total σ l P QM :
  positions_of σ l = Some P → holdings P = Some QM →
  sum_position_values l σ = (Returns (total QM), σ).
Proof.
  intros Hl HP. rewrite (sum_position_values_run _ _ _ Hl).
  by rewrite (sum_outcomes_holdings _ _ HP).
Qed.

Lemma calc_nav_total σ cash l P QM :
  positions_of σ l = Some P → holdings P = Some QM →
  calc_nav cash l σ = (Returns (cash + total QM), σ).
Proof.
  intros Hl HP. by rewrite calc_nav_run, (sum_position_values_total _ _ _ _ Hl HP).
Qed.

Lemma holdings_Permutation P P' :
  P ≡ₚ P' → ∀ QM, holdings P = Some QM →
  ∃ QM', holdings P' = Some QM' ∧ QM ≡ₚ QM'.
Proof.
  induction 1 as [|d P P' _ IH|d d' P|P P' P'' _ IH1 _ IH2]; intros QM.
  - intros [= <-]. by exists [].
  - rewrite !holdings_cons. destruct (holding d) as [qm|]; [|discriminate]. simpl.
    destruct (holdings P) as [QM0|] eqn:HP; [|discriminate]. simpl.
    intros [= <-]. destruct (IH _ eq_refl) as (QM' & HP' & Hperm).
    rewrite HP'. exists (qm :: QM'). split; [reflexivity|]. by constructor.
  - rewrite !holdings_cons.
    destruct (holding d') as [qm'|]; [|discriminate]. simpl.
    destruct (holding d) as [qm|]; [|discriminate]. simpl.
    destruct (holdings P) as [QM0|]; [|discriminate]. simpl.
    intros [= <-]. exists (qm :: qm' :: QM0). split; [reflexivity|]. constructor.
  - intros HP. destruct (IH1 _ HP) as (QM' & HP' & Hperm1).
    destruct (IH2 _ HP') as (QM'' & HP'' & Hperm2).
    exists QM''. split; [done|]. by etrans.
Qed.

(** *** Lookup *)

Lemma getitem_asset_id σ p d a :
  dicts σ !! p = Some d → asset_id_of d = Some a →
  getitem p "asset_id" σ = (Returns (VStr a), σ).
Proof.
  intros Hp Ha. rewrite (getitem_run _ _ _ _ Hp). unfold asset_id_of in Ha.
  destruct (d !! "asset_id") as [[]|]; by simplify_eq.
Qed.

Lemma get_position_loop_first σ ps P :
  Forall2 (λ p d, dicts σ !! p = Some d) ps P →
  ∀ ids id, asset_ids P = Some ids →
    (∀ i p, ps !! i = Some p → ids !! i = Some id →
       (∀ j, (j < i)%nat → ids !! j ≠ Some id) →
       get_position_loop ps id σ = (Returns (Some p), σ)) ∧
    (id ∉ ids → get_position_loop ps id σ = (Returns None, σ)).
Proof.
  unfold asset_ids.
  induction 1 as [|p d ps P Hp _ IH]; intros ids id Hids%mapM_Some.
  - inversion Hids; subst. split; [intros i p [=]|reflexivity].
  - inversion Hids as [|? a ? ids' Ha Hids']; subst.
    apply mapM_Some in Hids'. destruct (IH _ id Hids') as [IHfound IHnone].
    cbn [get_position_loop].
    rewrite (bind_returns _ _ _ _ _ (getitem_asset_id _ _ _ _ Hp Ha)).
    cbn [py_eq]. destruct (String.eqb_spec a id) as [->|Hne]; split.
    + intros [|i] q Hq Hi Hfirst; simpl in *; [by simplify_eq|].
      by destruct (Hfirst 0%nat ltac:(lia)).
    + intros []. by left.
    + intros [|i] q Hq Hi Hfirst; simpl in *; [by simplify_eq|].
      apply (IHfound i); [done..|]. intros j Hj. apply (Hfirst (S j)). lia.
    + intros Hnot. apply IHnone. intros Hin. apply Hnot. by right.
Qed.

(** *** The Money range *)

Lemma wrap64_in_range z : in_money_range (wrap64 z).
Proof.
  unfold in_money_range, wrap64, Money_MIN, Money_MAX.
  pose proof (Z.mod_pos_bound (z + 2 ^ 63) (2 ^ 64) ltac:(lia)). lia.
Qed.

Lemma wrap64_changes z : ¬ in_money_range z → wrap64 z ≠ z.
Proof. intros Hout Heq. apply Hout. rewrite <- Heq. apply wrap64_in_range. Qed.

Lemma returns_exact_result {v σ} (r : outcome Z * store) :
  r = (Returns v, σ) → exact_result r v σ.
Proof.
  intros ->. split; [reflexivity|]. intros Hout. split.
  - intros [= Heq]. by apply (wrap64_changes v).
  - intros [e [=]].
Qed.

(** ** The scenarios of [tests/test_ffi.py] *)

Example test_lean_runtime_initialization :
  (initialize_lean test_store).1 = Returns ().
Proof. reflexivity. Qed.

Example test_position_value_long :
  (position_value 100 500000 test_store).1 = Returns 50000000.
Proof. reflexivity. Qed.

Example test_position_value_short :
  (position_value (-50) 1800000 test_store).1 = Returns (-90000000).
Proof. reflexivity. Qed.

Example test_position_value_zero_quantity :
  (position_value 0 500000 test_store).1 = Returns 0.
Proof. reflexivity. Qed.

Example test_sum_position_values_empty :
  (sum_position_values 10%positive test_store).1 = Returns 0.
Proof. vm_compute. reflexivity. Qed.

Example test_sum_position_values_multiple :
  (sum_position_values 12%positive test_store).1 = Returns 140000000.
Proof. vm_compute. reflexivity. Qed.

Example test_calc_nav_empty_portfolio :
  (calc_nav 1000000 10%positive test_store).1 = Returns 1000000.
Proof. vm_compute. reflexivity. Qed.

Example test_calc_nav_with_positions :
  (calc_nav 1000000 11%positive test_store).1 = Returns 141000000.
Proof. vm_compute. reflexivity. Qed.

Example test_get_position_found :
  (get_position 11%positive "SPY" test_store).1 = Returns (Some 1%positive) ∧
  dicts test_store !! 1%positive = Some SPY ∧
  SPY !! "asset_id" = Some (VStr "SPY") ∧ SPY !! "quantity" = Some (VInt 100).
Proof. vm_compute. auto. Qed.

Example test_get_position_not_found :
  (get_position 13%positive "TSLA" test_store).1 = Returns None.
Proof. vm_compute. reflexivity. Qed.

Example test_get_position_empty :
  (get_position 10%positive "SPY" test_store).1 = Returns None.
Proof. vm_compute. reflexivity. Qed.

(** The match is exact: no case folding, no trimming. *)
Example get_position_exact_match :
  (get_position 11%positive "spy" test_store).1 = Returns None ∧
  (get_position 11%positive " SPY" test_store).1 = Returns None ∧
  (get_position 11%positive "SPY " test_store).1 = Returns None ∧
  (get_position 11%positive "SP" test_store).1 = Returns None.
Proof. vm_compute. auto. Qed.

(** A record without its keys: the lookup raises, and on malformed records
    the order of the list decides which key is reported. *)
Example get_position_missing_key :
  (get_position 12%positive "SPY" test_store).1 = Raises (KeyError "asset_id").
Proof. vm_compute. reflexivity. Qed.

Example sum_position_values_error_order :
  let σ := Store {[ 1%positive := {[ "quantity" := VInt 1 ]};
                    2%positive := {[ "mark_price" := VInt 1 ]} ]}
                 {[ 10%positive := [1%positive; 2%positive];
                    11%positive := [2%positive; 1%positive] ]} in
  (sum_position_values 10%positive σ).1 = Raises (KeyError "mark_price") ∧
  (sum_position_values 11%positive σ).1 = Raises (KeyError "quantity").
Proof. vm_compute. auto. Qed.

(** ** Net asset value *)

(** C1: for every cash amount and every sequence of positions,
    [calc_nav(cash, P)] returns exactly [cash + sum_position_values(P)],
    and on the empty sequence it returns [cash]. *)
Theorem calc_nav_is_cash_plus_sum σ cash l P QM :
  positions_of σ l = Some P → holdings P = Some QM →
  ∃ s, sum_position_values l σ = (Returns s, σ) ∧
       calc_nav cash l σ = (Returns (cash + s), σ) ∧
       (P = [] → calc_nav cash l σ = (Returns cash, σ)).
Proof.
  intros Hl HP. exists (total QM).
  rewrite (sum_position_values_total _ _ _ _ Hl HP).
  rewrite (calc_nav_total _ _ _ _ _ Hl HP).
  split; [reflexivity|]. split; [reflexivity|].
  intros ->. injection HP as <-. unfold total. simpl. f_equal. f_equal. lia.
Qed.

Lemma calc_nav_is_cash_plus_sum_witness :
  ∃ s, sum_position_values 11%positive test_store = (Returns s, test_store) ∧
       calc_nav 1000000 11%positive test_store = (Returns (1000000 + s), test_store) ∧
       ([SPY; AAPL] = [] →
        calc_nav 1000000 11%positive test_store = (Returns 1000000, test_store)).
Proof.
  apply (calc_nav_is_cash_plus_sum test_store 1000000 11%positive
           [SPY; AAPL] [(100, 500000); (50, 1800000)]).
  - vm_compute. reflexivity.
  - vm_compute. reflexivity.
Defined.

(** ** Position valuation *)

(** C3: [position_value(q, m)] returns exactly the integer product [q * m],
    the sign of a negative price propagates, and a zero quantity gives zero
    whatever the price. *)
Theorem position_value_exact σ q m :
  position_value q m σ = (Returns (q * m), σ) ∧
  position_value q (- m) σ = (Returns (- (q * m)), σ) ∧
  position_value 0 m σ = (Returns 0, σ).
Proof.
  unfold position_value. repeat split.
  by rewrite Z.mul_opp_r.
Qed.

(** ** Summation *)

(** C4: [sum_position_values(P)] returns the sum of
    [position_value(p.quantity, p.mark_price)] over the elements of [P], and
    zero on the empty sequence. *)
Theorem sum_position_values_is_sum σ l P QM :
  positions_of σ l = Some P → holdings P = Some QM →
  ∃ vs, Forall2 (λ qm v, position_value qm.1 qm.2 σ = (Returns v, σ)) QM vs ∧
        sum_position_values l σ = (Returns (sum_Z vs), σ) ∧
        (P = [] → sum_position_values l σ = (Returns 0, σ)).
Proof.
  intros Hl HP. exists ((λ qm, qm.1 * qm.2) <$> QM).
  rewrite (sum_position_values_total _ _ _ _ Hl HP). split; [|split].
  - apply Forall2_fmap_r, Forall_Forall2_diag, Forall_true. by intros [q m].
  - reflexivity.
  - intros ->. by injection HP as <-.
Qed.

Lemma sum_position_values_is_sum_witness :
  ∃ vs, Forall2 (λ qm v, position_value qm.1 qm.2 test_store = (Returns v, test_store))
          [(100, 500000); (50, 1800000)] vs ∧
        sum_position_values 12%positive test_store = (Returns (sum_Z vs), test_store) ∧
        ([anon1; anon2] = [] →
         sum_position_values 12%positive test_store = (Returns 0, test_store)).
Proof.
  apply (sum_position_values_is_sum test_store 12%positive [anon1; anon2]).
  - vm_compute. reflexivity.
  - vm_compute. reflexivity.
Defined.

(** ** Lookup *)

(** C5: [get_position(P, id)] returns the first position of [P] whose
    [asset_id] is exactly [id], and returns [None], not an error, when no
    element of [P] has that [asset_id], the empty sequence included. *)
Theorem get_position_first_match σ l ps P ids id :
  lists σ !! l = Some ps → positions_of σ l = Some P → asset_ids P = Some ids →
  (∀ i p, ps !! i = Some p → ids !! i = Some id →
     (∀ j, (j < i)%nat → ids !! j ≠ Some id) →
     get_position l id σ = (Returns (Some p), σ) ∧
     ∃ d, dicts σ !! p = Some d ∧ d !! "asset_id" = Some (VStr id)) ∧
  (id ∉ ids → get_position l id σ = (Returns None, σ)) ∧
  (ps = [] → get_position l id σ = (Returns None, σ)).
Proof.
  intros Hl HP Hids.
  apply positions_of_Some in HP as (ps' & Hl' & HP).
  rewrite Hl in Hl'. injection Hl' as <-.
  destruct (get_position_loop_first σ ps P HP ids id Hids) as [Hfound Hnone].
  assert (Hrun : get_position l id σ = get_position_loop ps id σ).
  { unfold get_position, list_iter. by rewrite bind_run, Hl. }
  rewrite Hrun. split; [|split].
  - intros i p Hp Hi Hfirst. split; [by apply (Hfound i)|].
    destruct (Forall2_lookup_l _ _ _ _ _ HP Hp) as (d & Hd & Hpd).
    exists d. split; [done|].
    apply mapM_Some in Hids.
    destruct (Forall2_lookup_l _ _ _ _ _ Hids Hd) as (a & Ha & Hda).
    rewrite Hi in Ha. injection Ha as <-. unfold asset_id_of in Hda.
    destruct (d !! "asset_id") as [[]|]; by simplify_eq.
  - done.
  - by intros ->.
Qed.

Lemma get_position_first_match_witness :
  get_position 11%positive "AAPL" test_store = (Returns (Some 2%positive), test_store) ∧
  ∃ d, dicts test_store !! 2%positive = Some d ∧ d !! "asset_id" = Some (VStr "AAPL").
Proof.
  assert (Hl : lists test_store !! 11%positive = Some [1%positive; 2%positive])
    by (vm_compute; reflexivity).
  assert (HP : positions_of test_store 11%positive = Some [SPY; AAPL])
    by (vm_compute; reflexivity).
  assert (Hids : asset_ids [SPY; AAPL] = Some ["SPY"; "AAPL"])
    by (vm_compute; reflexivity).
  apply (proj1 (get_position_first_match _ _ _ _ _ "AAPL" Hl HP Hids) 1%nat 2%positive).
  - reflexivity.
  - reflexivity.
  - intros [|j] Hj; [discriminate|lia].
Defined.

(** ** Overflow *)

(** C2, as stated, fails: at the edge of the signed 64-bit Money range the
    three valuation operations return the out-of-range value and signal
    nothing. *)
Lemma overflow_not_signalled :
  ¬ in_money_range (Quantity_MAX * Money_MAX) ∧
  position_value Quantity_MAX Money_MAX huge_store
    = (Returns 85070591730234615847396907784232501249, huge_store) ∧
  ¬ signals_error (position_value Quantity_MAX Money_MAX huge_store) ∧
  sum_position_values 10%positive huge_store
    = (Returns 85070591730234615847396907784232501249, huge_store) ∧
  ¬ signals_error (sum_position_values 10%positive huge_store) ∧
  ¬ in_money_range (Money_MAX + 1 * 1) ∧
  calc_nav Money_MAX 11%positive huge_store = (Returns 9223372036854775808, huge_store) ∧
  ¬ signals_error (calc_nav Money_MAX 11%positive huge_store).
Proof.
  assert (Hpv : position_value Quantity_MAX Money_MAX huge_store
                = (Returns 85070591730234615847396907784232501249, huge_store))
    by reflexivity.
  assert (Hsum : sum_position_values 10%positive huge_store
                 = (Returns 85070591730234615847396907784232501249, huge_store))
    by (vm_compute; reflexivity).
  assert (Hnav : calc_nav Money_MAX 11%positive huge_store
                 = (Returns 9223372036854775808, huge_store))
    by (vm_compute; reflexivity).
  rewrite Hpv, Hsum, Hnav.
  unfold in_money_range, signals_error, Quantity_MAX, Money_MAX, Money_MIN.
  repeat split; try lia; by intros [e [=]].
Qed.

(** C2, amended: the three valuation operations compute over unbounded
    integers; on every input, including those whose true product or sum
    lies outside the signed 64-bit Money range, they return the exact
    mathematical value, never a wrapped one, and signal no overflow error. *)
Theorem exact_beyond_money_range σ l cash q m P QM :
  positions_of σ l = Some P → holdings P = Some QM →
  exact_result (position_value q m σ) (q * m) σ ∧
  exact_result (sum_position_values l σ) (total QM) σ ∧
  exact_result (calc_nav cash l σ) (cash + total QM) σ.
Proof.
  intros Hl HP. split; [|split]; apply returns_exact_result.
  - reflexivity.
  - by apply (sum_position_values_total _ _ P).
  - by apply (calc_nav_total _ _ _ P).
Qed.

Lemma exact_beyond_money_range_witness :
  exact_result (position_value Quantity_MAX Money_MAX huge_store)
    (Quantity_MAX * Money_MAX) huge_store ∧
  exact_result (sum_position_values 10%positive huge_store)
    (total [(Quantity_MAX, Money_MAX)]) huge_store ∧
  exact_result (calc_nav Money_MAX 10%positive huge_store)
    (Money_MAX + total [(Quantity_MAX, Money_MAX)]) huge_store.
Proof.
  apply (exact_beyond_money_range huge_store 10%positive Money_MAX
           Quantity_MAX Money_MAX [huge] [(Quantity_MAX, Money_MAX)]).
  - vm_compute. reflexivity.
  - vm_compute. reflexivity.
Defined.

(** ** Order independence *)

(** C6: on well-formed positions, [sum_position_values] gives the same
    result for a sequence and for any permutation of it. *)
Theorem sum_position_values_permutation σ σ' l l' P P' QM :
  positions_of σ l = Some P → positions_of σ' l' = Some P' →
  holdings P = Some QM → P ≡ₚ P' →
  ∃ s, sum_position_values l σ = (Returns s, σ) ∧
       sum_position_values l' σ' = (Returns s, σ').
Proof.
  intros Hl Hl' HP Hperm.
  destruct (holdings_Permutation _ _ Hperm _ HP) as (QM' & HP' & HQM).
  exists (total QM). split.
  - by apply (sum_position_values_total _ _ P).
  - rewrite (total_Permutation _ _ HQM). by apply (sum_position_values_total _ _ P').
Qed.

Lemma sum_position_values_permutation_witness :
  ∃ s, sum_position_values 11%positive test_store = (Returns s, test_store) ∧
       sum_position_values 15%positive test_store = (Returns s, test_store).
Proof.
  apply (sum_position_values_permutation test_store test_store 11%positive 15%positive
           [SPY; AAPL] [AAPL; SPY] [(100, 500000); (50, 1800000)]).
  - vm_compute. reflexivity.
  - vm_compute. reflexivity.
  - vm_compute. reflexivity.
  - apply perm_swap.
Defined.

(** ** The initialisation hook *)

(** C7: [initialize_lean] never fails, returns nothing, and leaves no
    trace: called any number of times, before or after any other
    computation, it changes neither the store nor any result. *)
Theorem initialize_lean_inert σ :
  initialize_lean σ = (Returns (), σ) ∧
  (∀ n, initialize_lean_times n σ = (Returns (), σ)) ∧
  (∀ A (m : M A), (initialize_lean;; m) σ = m σ) ∧
  (∀ A (m : M A), (a ← m; initialize_lean;; mret a) σ = m σ).
Proof.
  split; [reflexivity|]. split; [|split].
  - intros n. induction n as [|n IH]; [reflexivity|]. simpl.
    by rewrite bind_run.
  - reflexivity.
  - intros A m. rewrite bind_run. by destruct (m σ) as [[a|e|] σ'].
Qed.

(** ** Frame *)

(** C8: [get_position], like every other kernel operation, does not mutate
    its input: the store after the call is the store before it, so the list
    and every position record in it are unchanged. *)
Theorem kernel_does_not_mutate σ l id cash q m :
  (let σ' := (get_position l id σ).2 in
   σ' = σ ∧ lists σ' !! l = lists σ !! l ∧ positions_of σ' l = positions_of σ l) ∧
  (sum_position_values l σ).2 = σ ∧
  (calc_nav cash l σ).2 = σ ∧
  (position_value q m σ).2 = σ ∧
  (initialize_lean σ).2 = σ.
Proof.
  repeat split.
  - apply reads_only_get_position.
  - by rewrite reads_only_get_position.
  - by rewrite reads_only_get_position.
  - apply reads_only_sum_position_values.
  - apply reads_only_calc_nav.
Qed.

(** ** Independence from the other fields *)

(** C9: [sum_position_values] and [calc_nav] read only the [quantity] and
    [mark_price] entries: two sequences of equal length that agree pairwise
    on those two entries give equal results, whatever their [asset_id] or
    other keys. *)
Theorem valuation_reads_two_fields σ σ' l l' cash P P' :
  positions_of σ l = Some P → positions_of σ' l' = Some P' →
  valuation_view <$> P = valuation_view <$> P' →
  length P = length P' ∧
  (sum_position_values l σ).1 = (sum_position_values l' σ').1 ∧
  (calc_nav cash l σ).1 = (calc_nav cash l' σ').1.
Proof.
  intros Hl Hl' Hview.
  assert (Hsum : (sum_position_values l σ).1 = (sum_position_values l' σ').1).
  { rewrite (sum_position_values_run _ _ _ Hl), (sum_position_values_run _ _ _ Hl').
    simpl. by rewrite !list_fmap_compose, Hview. }
  split; [|split; [exact Hsum|]].
  - by rewrite <- (length_fmap valuation_view P), Hview, length_fmap.
  - rewrite !calc_nav_run.
    destruct (sum_position_values l σ) as [[s|e|] σ1],
             (sum_position_values l' σ') as [[s'|e'|] σ1'];
      simpl in *; congruence.
Qed.

Lemma valuation_reads_two_fields_witness :
  length [SPY; AAPL] = length [anon1; anon2] ∧
  (sum_position_values 11%positive test_store).1
    = (sum_position_values 12%positive test_store).1 ∧
  (calc_nav 1000000 11%positive test_store).1
    = (calc_nav 1000000 12%positive test_store).1.
Proof.
  apply (valuation_reads_two_fields test_store test_store 11%positive 12%positive
           1000000 [SPY; AAPL] [anon1; anon2]).
  - vm_compute. reflexivity.
  - vm_compute. reflexivity.
  - vm_compute. reflexivity.
Defined.

(** ** Concatenation *)

Lemma sum_outcomes_shift os : ∀ a b,
  sum_outcomes (a + b) os =
    match sum_outcomes b os with
    | Returns s => Returns (a + s)
    | Raises e => Raises e
    | Unmodelled => Unmodelled
    end.
Proof.
  induction os as [|[v|e|] os IH]; intros a b; simpl; try reflexivity.
  by rewrite <- Z.add_assoc, IH.
Qed.

Lemma sum_outcomes_app os1 os2 : ∀ a,
  sum_outcomes a (os1 ++ os2) =
    match sum_outcomes a os1 with
    | Returns s => sum_outcomes s os2
    | Raises e => Raises e
    | Unmodelled => Unmodelled
    end.
Proof. induction os1 as [|[v|e|] os1 IH]; intros a; simpl; auto. Qed.

(** The law holds on every outcome, errors included: the concatenation
    fails exactly where summing the two parts in turn fails. *)
Lemma sum_concat_outcome σ l1 l2 l12 P1 P2 :
  positions_of σ l1 = Some P1 → positions_of σ l2 = Some P2 →
  positions_of σ l12 = Some (P1 ++ P2) →
  sum_position_values l12 σ =
    (s1 ← sum_position_values l1; s2 ← sum_position_values l2; mret (s1 + s2)) σ.
Proof.
  intros H1 H2 H12. rewrite !bind_run.
  rewrite (sum_position_values_run _ _ _ H12), (sum_position_values_run _ _ _ H1).
  rewrite fmap_app, sum_outcomes_app.
  destruct (sum_outcomes 0 (item_outcome ∘ valuation_view <$> P1)) as [s1|e|];
    [|reflexivity..].
  rewrite bind_run, (sum_position_values_run _ _ _ H2).
  rewrite <- (Z.add_0_r s1) at 1. rewrite sum_outcomes_shift.
  by destruct (sum_outcomes 0 (item_outcome ∘ valuation_view <$> P2)).
Qed.

(** C10: [sum_position_values] turns concatenation into addition, and
    [calc_nav] of a concatenation is [calc_nav] of the first part plus the
    sum of the second. *)
Theorem sum_position_values_app σ l1 l2 l12 cash P1 P2 QM1 QM2 :
  positions_of σ l1 = Some P1 → positions_of σ l2 = Some P2 →
  positions_of σ l12 = Some (P1 ++ P2) →
  holdings P1 = Some QM1 → holdings P2 = Some QM2 →
  ∃ s1 s2 n1,
    sum_position_values l1 σ = (Returns s1, σ) ∧
    sum_position_values l2 σ = (Returns s2, σ) ∧
    sum_position_values l12 σ = (Returns (s1 + s2), σ) ∧
    calc_nav cash l1 σ = (Returns n1, σ) ∧
    calc_nav cash l12 σ = (Returns (n1 + s2), σ).
Proof.
  intros H1 H2 H12 HP1 HP2.
  assert (HP12 : holdings (P1 ++ P2) = Some (QM1 ++ QM2)).
  { apply holdings_app. by exists QM1, QM2. }
  exists (total QM1), (total QM2), (cash + total QM1).
  rewrite (sum_position_values_total _ _ _ _ H1 HP1).
  rewrite (sum_position_values_total _ _ _ _ H2 HP2).
  rewrite (sum_position_values_total _ _ _ _ H12 HP12).
  rewrite (calc_nav_total _ _ _ _ _ H1 HP1), (calc_nav_total _ _ _ _ _ H12 HP12).
  rewrite total_app, Z.add_assoc. done.
Qed.

Lemma sum_position_values_app_witness :
  ∃ s1 s2 n1,
    sum_position_values 13%positive test_store = (Returns s1, test_store) ∧
    sum_position_values 14%positive test_store = (Returns s2, test_store) ∧
    sum_position_values 11%positive test_store = (Returns (s1 + s2), test_store) ∧
    calc_nav 1000000 13%positive test_store = (Returns n1, test_store) ∧
    calc_nav 1000000 11%positive test_store = (Returns (n1 + s2), test_store).
Proof.
  apply (sum_position_values_app test_store 13%positive 14%positive 11%positive
           1000000 [SPY] [AAPL] [(100, 500000)] [(50, 1800000)]).
  - vm_compute. reflexivity.
  - vm_compute. reflexivity.
  - vm_compute. reflexivity.
  - vm_compute. reflexivity.
  - vm_compute. reflexivity.
Defined.

(** * Further properties of the stubs *)

(** ** Lookup: what a result tells, and what is never read *)

Lemma py_eq_VStr v id : py_eq v (VStr id) = true ↔ v = VStr id.
Proof.
  destruct v as [z|s]; simpl; [split; discriminate|].
  rewrite String.eqb_eq. split; congruence.
Qed.

Lemma getitem_asset_entry σ p :
  getitem p "asset_id" σ =
    (match asset_entry σ p with
     | Some (Some v) => Returns v
     | Some None => Raises (KeyError "asset_id")
     | None => Unmodelled
     end, σ).
Proof.
  unfold getitem, asset_entry.
  destruct (dicts σ !! p) as [d|]; simpl; [|reflexivity].
  by destruct (d !! "asset_id").
Qed.

Lemma asset_entry_bind σ p v :
  (dicts σ !! p ≫= λ d : dict, d !! "asset_id") = Some v ↔
  asset_entry σ p = Some (Some v).
Proof.
  unfold asset_entry. destruct (dicts σ !! p) as [d|]; simpl; [|split; discriminate].
  split; congruence.
Qed.

Lemma get_position_loop_cons σ p ps id :
  get_position_loop (p :: ps) id σ =
    match asset_entry σ p with
    | Some (Some v) =>
        if py_eq v (VStr id) then (Returns (Some p), σ)
        else get_position_loop ps id σ
    | Some None => (Raises (KeyError "asset_id"), σ)
    | None => (Unmodelled, σ)
    end.
Proof.
  cbn [get_position_loop]. rewrite bind_run, getitem_asset_entry.
  destruct (asset_entry σ p) as [[v|]|]; [|reflexivity..].
  by destruct (py_eq v (VStr id)).
Qed.

Lemma get_position_on_list σ l ps id :
  lists σ !! l = Some ps → get_position l id σ = get_position_loop ps id σ.
Proof. intros Hl. unfold get_position, list_iter. by rewrite bind_run, Hl. Qed.

Lemma get_position_returns_list σ l id r σ' :
  get_position l id σ = (Returns r, σ') → ∃ ps, lists σ !! l = Some ps.
Proof.
  unfold get_position, list_iter. rewrite bind_run.
  destruct (lists σ !! l) as [ps|]; [eauto|discriminate].
Qed.

(** The records in front of the match are skipped one by one. *)
Lemma get_position_loop_skip σ ps1 rest id :
  ∀ vs, asset_values σ ps1 = Some vs → VStr id ∉ vs →
  get_position_loop (ps1 ++ rest) id σ = get_position_loop rest id σ.
Proof.
  unfold asset_values.
  induction ps1 as [|p ps1 IH]; intros vs Hvs%mapM_Some Hnot; [reflexivity|].
  inversion Hvs as [|? v ? vs' Hv Hvs']; subst.
  apply asset_entry_bind in Hv. apply mapM_Some in Hvs'.
  cbn [app]. rewrite get_position_loop_cons, Hv.
  destruct (py_eq v (VStr id)) eqn:Heq.
  - apply py_eq_VStr in Heq as ->. destruct Hnot. by left.
  - apply (IH vs'); [done|]. intros Hin. apply Hnot. by right.
Qed.

Lemma get_position_loop_found_inv σ id p σ' : ∀ ps,
  get_position_loop ps id σ = (Returns (Some p), σ') →
  σ' = σ ∧
  ∃ i, ps !! i = Some p ∧ asset_entry σ p = Some (Some (VStr id)) ∧
       ∀ j q, (j < i)%nat → ps !! j = Some q →
         ∃ v, asset_entry σ q = Some (Some v) ∧ v ≠ VStr id.
Proof.
  induction ps as [|q ps IH]; [discriminate|].
  rewrite get_position_loop_cons.
  destruct (asset_entry σ q) as [[v|]|] eqn:Hq; [|discriminate..].
  destruct (py_eq v (VStr id)) eqn:Heq.
  - intros [= <- <-]. apply py_eq_VStr in Heq as ->.
    split; [reflexivity|]. exists 0%nat. repeat split; [done|]. intros j ? Hj. lia.
  - intros (-> & i & Hi & Hp & Hbefore)%IH. split; [reflexivity|].
    exists (S i). repeat split; [done..|].
    intros [|j] q' Hj Hq'; simpl in *.
    + injection Hq' as <-. exists v. split; [done|].
      intros ->. by rewrite (proj2 (py_eq_VStr _ _) eq_refl) in Heq.
    + apply (Hbefore j); [lia|done].
Qed.

Lemma get_position_loop_none_inv σ id σ' : ∀ ps,
  get_position_loop ps id σ = (Returns None, σ') →
  σ' = σ ∧ Forall (λ q, ∃ v, asset_entry σ q = Some (Some v) ∧ v ≠ VStr id) ps.
Proof.
  induction ps as [|q ps IH]; [by intros [= <-]|].
  rewrite get_position_loop_cons.
  destruct (asset_entry σ q) as [[v|]|] eqn:Hq; [|discriminate..].
  destruct (py_eq v (VStr id)) eqn:Heq; [discriminate|].
  intros [-> Hps]%IH. split; [reflexivity|]. constructor; [|done].
  exists v. split; [done|].
  intros ->. by rewrite (proj2 (py_eq_VStr _ _) eq_refl) in Heq.
Qed.

Lemma get_position_loop_entries σ σ' id : ∀ ps,
  asset_entry σ <$> ps = asset_entry σ' <$> ps →
  (get_position_loop ps id σ).1 = (get_position_loop ps id σ').1.
Proof.
  induction ps as [|p ps IH]; [reflexivity|].
  intros [= Hp Hps]. rewrite !get_position_loop_cons, <- Hp.
  destruct (asset_entry σ p) as [[v|]|]; [|reflexivity..].
  destruct (py_eq v (VStr id)); [reflexivity|by apply IH].
Qed.

(** X1: a position returned by [get_position] is an element of the list,
    its [asset_id] is the queried string, and every element in front of it
    was examined and has another [asset_id]; the store is unchanged. *)
Theorem get_position_found_sound σ l id p σ' :
  get_position l id σ = (Returns (Some p), σ') →
  σ' = σ ∧
  ∃ ps i, lists σ !! l = Some ps ∧ ps !! i = Some p ∧
          asset_entry σ p = Some (Some (VStr id)) ∧
          ∀ j q, (j < i)%nat → ps !! j = Some q →
            ∃ v, asset_entry σ q = Some (Some v) ∧ v ≠ VStr id.
Proof.
  intros Hrun. destruct (get_position_returns_list _ _ _ _ _ Hrun) as [ps Hl].
  rewrite (get_position_on_list _ _ _ _ Hl) in Hrun.
  apply get_position_loop_found_inv in Hrun as (-> & i & Hi & Hp & Hbefore).
  split; [reflexivity|]. by exists ps, i.
Qed.

Lemma get_position_found_sound_witness :
  edge_store = edge_store ∧
  ∃ ps i, lists edge_store !! 20%positive = Some ps ∧ ps !! i = Some 1%positive ∧
          asset_entry edge_store 1%positive = Some (Some (VStr "SPY")) ∧
          ∀ j q, (j < i)%nat → ps !! j = Some q →
            ∃ v, asset_entry edge_store q = Some (Some v) ∧ v ≠ VStr "SPY".
Proof.
  apply (get_position_found_sound edge_store 20%positive "SPY" 1%positive edge_store).
  vm_compute. reflexivity.
Defined.

(** X2: when [get_position] returns [None], every element of the list was
    examined: each is a dict with an [asset_id], and none of them equals the
    query. *)
Theorem get_position_none_complete σ l id σ' :
  get_position l id σ = (Returns None, σ') →
  σ' = σ ∧
  ∃ ps, lists σ !! l = Some ps ∧
        Forall (λ q, ∃ v, asset_entry σ q = Some (Some v) ∧ v ≠ VStr id) ps.
Proof.
  intros Hrun. destruct (get_position_returns_list _ _ _ _ _ Hrun) as [ps Hl].
  rewrite (get_position_on_list _ _ _ _ Hl) in Hrun.
  apply get_position_loop_none_inv in Hrun as [-> Hps].
  split; [reflexivity|]. by exists ps.
Qed.

Lemma get_position_none_complete_witness :
  edge_store = edge_store ∧
  ∃ ps, lists edge_store !! 22%positive = Some ps ∧
        Forall (λ q, ∃ v, asset_entry edge_store q = Some (Some v) ∧ v ≠ VStr "TSLA") ps.
Proof.
  apply (get_position_none_complete edge_store 22%positive "TSLA" edge_store).
  vm_compute. reflexivity.
Defined.

(** X3: [get_position] stops at the first match.  When the elements in
    front of [p] all carry an [asset_id] other than the query (a string or an
    integer) and [p] carries the query, [p] is returned whatever follows it:
    the rest of the list is never read, so a record without [asset_id] behind
    the match raises nothing. *)
Theorem get_position_stops_at_match σ l ps1 p ps2 vs id :
  lists σ !! l = Some (ps1 ++ p :: ps2) →
  asset_values σ ps1 = Some vs → VStr id ∉ vs →
  asset_entry σ p = Some (Some (VStr id)) →
  get_position l id σ = (Returns (Some p), σ).
Proof.
  intros Hl Hvs Hnot Hp.
  rewrite (get_position_on_list _ _ _ _ Hl).
  rewrite (get_position_loop_skip _ _ _ _ vs Hvs Hnot).
  rewrite get_position_loop_cons, Hp.
  by rewrite (proj2 (py_eq_VStr _ _) eq_refl).
Qed.

Lemma get_position_stops_at_match_witness :
  get_position 20%positive "SPY" edge_store = (Returns (Some 1%positive), edge_store).
Proof.
  apply (get_position_stops_at_match edge_store 20%positive
           [5%positive] 1%positive [3%positive] [VInt 7] "SPY").
  - vm_compute. reflexivity.
  - vm_compute. reflexivity.
  - intros Hin. apply list_elem_of_singleton in Hin. discriminate.
  - vm_compute. reflexivity.
Defined.

(** X4: a record without the key ["asset_id"] that is reached before any
    match makes [get_position] raise [KeyError("asset_id")]: the lookup does
    not skip it and does not answer [None]. *)
Theorem get_position_missing_asset_id σ l ps1 p ps2 vs id :
  lists σ !! l = Some (ps1 ++ p :: ps2) →
  asset_values σ ps1 = Some vs → VStr id ∉ vs →
  asset_entry σ p = Some None →
  get_position l id σ = (Raises (KeyError "asset_id"), σ).
Proof.
  intros Hl Hvs Hnot Hp.
  rewrite (get_position_on_list _ _ _ _ Hl).
  rewrite (get_position_loop_skip _ _ _ _ vs Hvs Hnot).
  by rewrite get_position_loop_cons, Hp.
Qed.

Lemma get_position_missing_asset_id_witness :
  get_position 20%positive "TSLA" edge_store
    = (Raises (KeyError "asset_id"), edge_store).
Proof.
  apply (get_position_missing_asset_id edge_store 20%positive
           [5%positive; 1%positive] 3%positive [] [VInt 7; VStr "SPY"] "TSLA").
  - vm_compute. reflexivity.
  - vm_compute. reflexivity.
  - intros Hin. apply elem_of_cons in Hin as [Hin|Hin]; [discriminate|].
    apply list_elem_of_singleton in Hin. discriminate.
  - vm_compute. reflexivity.
Defined.

(** X5: [get_position] reads nothing but the entries under ["asset_id"]:
    for the same references, two stores that agree on those entries give the
    same result, whatever the quantities, prices and other keys are. *)
Theorem get_position_reads_asset_id_only σ σ' l l' ps id :
  lists σ !! l = Some ps → lists σ' !! l' = Some ps →
  asset_entry σ <$> ps = asset_entry σ' <$> ps →
  (get_position l id σ).1 = (get_position l' id σ').1.
Proof.
  intros Hl Hl' Hentries.
  rewrite (get_position_on_list _ _ _ _ Hl), (get_position_on_list _ _ _ _ Hl').
  by apply get_position_loop_entries.
Qed.

Lemma get_position_reads_asset_id_only_witness :
  (get_position 11%positive "AAPL" test_store).1
    = (get_position 11%positive "AAPL" repriced_store).1.
Proof.
  apply (get_position_reads_asset_id_only test_store repriced_store
           11%positive 11%positive [1%positive; 2%positive] "AAPL").
  - vm_compute. reflexivity.
  - vm_compute. reflexivity.
  - vm_compute. reflexivity.
Defined.

(** ** Valuation: failures, and what a returned value tells *)

Lemma item_value_returns_inv σ p v σ' :
  item_value p σ = (Returns v, σ') →
  σ' = σ ∧ ∃ d q m, dicts σ !! p = Some d ∧ holding d = Some (q, m) ∧ v = q * m.
Proof.
  destruct (dicts σ !! p) as [d|] eqn:Hp.
  - rewrite (item_value_run _ _ _ Hp). unfold valuation_view.
    destruct (d !! "quantity") as [[q|?]|] eqn:Hq,
             (d !! "mark_price") as [[m|?]|] eqn:Hm; simpl; try discriminate.
    intros [= <- <-]. split; [reflexivity|]. exists d, q, m.
    split; [reflexivity|]. split; [|reflexivity]. by apply holding_Some.
  - unfold item_value, getitem. rewrite bind_run, Hp. discriminate.
Qed.

Lemma py_sum_returns_inv σ s σ' : ∀ ps start,
  py_sum start (item_value <$> ps) σ = (Returns s, σ') →
  σ' = σ ∧
  ∃ P QM, Forall2 (λ p d, dicts σ !! p = Some d) ps P ∧
          holdings P = Some QM ∧ s = start + total QM.
Proof.
  induction ps as [|p ps IH]; intros start.
  - intros [= <- <-]. split; [reflexivity|]. exists [], [].
    split; [constructor|]. split; [reflexivity|]. unfold total. simpl. lia.
  - cbn [fmap list_fmap py_sum]. rewrite bind_run.
    destruct (item_value p σ) as [[v|e|] σ1] eqn:Hitem; [|discriminate..].
    apply item_value_returns_inv in Hitem as (-> & d & q & m & Hp & Hd & ->).
    intros (-> & P & QM & HP & HQM & ->)%IH. split; [reflexivity|].
    exists (d :: P), ((q, m) :: QM). split; [by constructor|]. split.
    + rewrite holdings_cons, Hd, HQM. reflexivity.
    + rewrite total_cons. lia.
Qed.

Lemma py_sum_app gen1 gen2 : ∀ start σ,
  py_sum start (gen1 ++ gen2) σ = (s ← py_sum start gen1; py_sum s gen2) σ.
Proof.
  induction gen1 as [|item gen1 IH]; intros start σ; [reflexivity|].
  cbn [app py_sum]. rewrite !bind_run.
  destruct (item σ) as [[v|e|] σ1]; [|reflexivity..].
  by rewrite IH, bind_run.
Qed.

Lemma sum_position_values_on_list σ l ps :
  lists σ !! l = Some ps →
  sum_position_values l σ = py_sum 0 (item_value <$> ps) σ.
Proof. intros Hl. unfold sum_position_values, list_iter. by rewrite bind_run, Hl. Qed.

Lemma item_outcome_missing_key d k :
  missing_key d = Some k → item_outcome (valuation_view d) = Raises (KeyError k).
Proof.
  unfold missing_key, valuation_view.
  destruct (d !! "quantity") as [q|], (d !! "mark_price") as [m|];
    intros [= <-]; by try destruct q.
Qed.

Lemma calc_nav_fst σ σ' cash l l' :
  (sum_position_values l σ).1 = (sum_position_values l' σ').1 →
  (calc_nav cash l σ).1 = (calc_nav cash l' σ').1.
Proof.
  rewrite !calc_nav_run.
  destruct (sum_position_values l σ) as [[s|e|] σ1],
           (sum_position_values l' σ') as [[s'|e'|] σ1'];
    simpl; congruence.
Qed.

(** X6: [sum_position_values] returns a value only on well-formed input:
    when it returns [s], every element of the list is a dict holding an
    integer [quantity] and an integer [mark_price], [s] is the sum of their
    products, and the store is unchanged. *)
Theorem sum_position_values_returns_inv σ l s σ' :
  sum_position_values l σ = (Returns s, σ') →
  σ' = σ ∧
  ∃ P QM, positions_of σ l = Some P ∧ holdings P = Some QM ∧ s = total QM.
Proof.
  intros Hrun.
  assert (∃ ps, lists σ !! l = Some ps) as [ps Hl].
  { revert Hrun. unfold sum_position_values, list_iter. rewrite bind_run.
    destruct (lists σ !! l) as [ps|]; [eauto|discriminate]. }
  rewrite (sum_position_values_on_list _ _ _ Hl) in Hrun.
  apply py_sum_returns_inv in Hrun as (-> & P & QM & HP & HQM & ->).
  split; [reflexivity|]. exists P, QM. split; [|split; [done|lia]].
  apply positions_of_Some. by exists ps.
Qed.

Lemma sum_position_values_returns_inv_witness :
  test_store = test_store ∧
  ∃ P QM, positions_of test_store 12%positive = Some P ∧
          holdings P = Some QM ∧ 140000000 = total QM.
Proof.
  apply (sum_position_values_returns_inv test_store 12%positive 140000000 test_store).
  vm_compute. reflexivity.
Defined.

(** X7: the first record that lacks ["quantity"] or ["mark_price"], behind
    well-formed ones, makes [sum_position_values] and [calc_nav] raise
    [KeyError] for that key; ["quantity"] is reported when both are missing,
    and a missing ["mark_price"] is reported even when the quantity is not an
    integer.  No partial sum is returned and the records behind are not
    read. *)
Theorem valuation_missing_key σ l cash ps1 p ps2 P1 QM1 d k :
  lists σ !! l = Some (ps1 ++ p :: ps2) →
  mapM (λ q, dicts σ !! q) ps1 = Some P1 → holdings P1 = Some QM1 →
  dicts σ !! p = Some d → missing_key d = Some k →
  sum_position_values l σ = (Raises (KeyError k), σ) ∧
  calc_nav cash l σ = (Raises (KeyError k), σ).
Proof.
  intros Hl HP1%mapM_Some HQM1 Hp Hk.
  assert (Hsum : sum_position_values l σ = (Raises (KeyError k), σ)).
  { rewrite (sum_position_values_on_list _ _ _ Hl), fmap_app, py_sum_app, bind_run.
    rewrite (py_sum_run _ _ _ HP1), (sum_outcomes_holdings _ _ HQM1).
    cbn [fmap list_fmap py_sum]. rewrite bind_run, (item_value_run _ _ _ Hp).
    by rewrite (item_outcome_missing_key _ _ Hk). }
  split; [exact Hsum|]. by rewrite calc_nav_run, Hsum.
Qed.

Lemma valuation_missing_key_witness :
  sum_position_values 21%positive edge_store
    = (Raises (KeyError "mark_price"), edge_store) ∧
  calc_nav 1000000 21%positive edge_store
    = (Raises (KeyError "mark_price"), edge_store).
Proof.
  apply (valuation_missing_key edge_store 21%positive 1000000
           [1%positive] 6%positive [4%positive] [SPY] [(100, 500000)] no_price).
  - vm_compute. reflexivity.
  - vm_compute. reflexivity.
  - vm_compute. reflexivity.
  - vm_compute. reflexivity.
  - vm_compute. reflexivity.
Defined.


(** ** Valuation: flat positions and scaling *)

Lemma sum_outcomes_insert_zero os1 os2 : ∀ start,
  sum_outcomes start (os1 ++ Returns 0 :: os2) = sum_outcomes start (os1 ++ os2).
Proof.
  intros start. rewrite !sum_outcomes_app.
  destruct (sum_outcomes start os1) as [s|e|]; [|reflexivity..].
  simpl. by rewrite Z.add_0_r.
Qed.

Lemma total_scale_quantities k QM :
  total (scale_quantities k QM) = k * total QM.
Proof.
  unfold scale_quantities.
  induction QM as [|[q m] QM IH]; [unfold total; simpl; lia|].
  cbn [fmap list_fmap]. rewrite !total_cons, IH. simpl. lia.
Qed.

(** X9: a flat position, with quantity zero or price zero, is neutral: put
    anywhere in the list it changes neither the result of
    [sum_position_values] nor that of [calc_nav], whatever the other records
    are and however large its price is. *)
Theorem flat_position_neutral σ σ' l l' cash P1 P2 d q m :
  positions_of σ l = Some (P1 ++ P2) →
  positions_of σ' l' = Some (P1 ++ d :: P2) →
  holding d = Some (q, m) → q * m = 0 →
  (sum_position_values l' σ').1 = (sum_position_values l σ).1 ∧
  (calc_nav cash l' σ').1 = (calc_nav cash l σ).1.
Proof.
  intros Hl Hl' Hd Hflat.
  assert (Hsum : (sum_position_values l' σ').1 = (sum_position_values l σ).1).
  { rewrite (sum_position_values_run _ _ _ Hl), (sum_position_values_run _ _ _ Hl').
    cbn [fst]. rewrite !fmap_app. cbn [fmap list_fmap compose].
    rewrite (item_outcome_holding _ _ _ Hd), Hflat.
    apply sum_outcomes_insert_zero. }
  split; [exact Hsum|]. by apply calc_nav_fst.
Qed.

Lemma flat_position_neutral_witness :
  (sum_position_values 23%positive edge_store).1
    = (sum_position_values 22%positive edge_store).1 ∧
  (calc_nav 1000000 23%positive edge_store).1
    = (calc_nav 1000000 22%positive edge_store).1.
Proof.
  apply (flat_position_neutral edge_store edge_store 22%positive 23%positive
           1000000 [SPY] [AAPL] flat 0 Money_MAX).
  - vm_compute. reflexivity.
  - vm_compute. reflexivity.
  - vm_compute. reflexivity.
  - reflexivity.
Defined.

(** X10: the valuation is linear in the quantities: multiplying every
    quantity by [k] multiplies the sum by [k], and with the cash scaled too
    the net asset value by [k]; with [k = -1], the short mirror of a
    portfolio has the opposite value. *)
Theorem valuation_scales σ σ' l l' cash k P P' QM :
  positions_of σ l = Some P → holdings P = Some QM →
  positions_of σ' l' = Some P' → holdings P' = Some (scale_quantities k QM) →
  ∃ s, sum_position_values l σ = (Returns s, σ) ∧
       sum_position_values l' σ' = (Returns (k * s), σ') ∧
       calc_nav (k * cash) l' σ' = (Returns (k * (cash + s)), σ').
Proof.
  intros Hl HP Hl' HP'. exists (total QM).
  rewrite (sum_position_values_total _ _ _ _ Hl HP).
  rewrite (sum_position_values_total _ _ _ _ Hl' HP').
  rewrite (calc_nav_total _ _ _ _ _ Hl' HP'), total_scale_quantities.
  repeat split. do 2 f_equal. lia.
Qed.

Lemma valuation_scales_witness :
  ∃ s, sum_position_values 22%positive edge_store = (Returns s, edge_store) ∧
       sum_position_values 24%positive edge_store = (Returns (-1 * s), edge_store) ∧
       calc_nav (-1 * 1000000) 24%positive edge_store
         = (Returns (-1 * (1000000 + s)), edge_store).
Proof.
  apply (valuation_scales edge_store edge_store 22%positive 24%positive 1000000 (-1)
           [SPY; AAPL] [short_SPY; short_AAPL] [(100, 500000); (50, 1800000)]).
  - vm_compute. reflexivity.
  - vm_compute. reflexivity.
  - vm_compute. reflexivity.
  - vm_compute. reflexivity.
Defined.
